(** * CdkTextColumn: a text column that registers itself with its host table

    A shallow embedding of the [CdkTextColumn] component of the CDK table
    (text-column.ts) and the proofs of its lifecycle properties:
    the [name] setter, the defaulting of [headerText] and [dataAccessor] in
    [ngOnInit], the registration of the column definition with the host
    table, and its removal in [ngOnDestroy].

    JavaScript values are modelled the way the (non-strict) TypeScript types
    of the component describe them: a value of type [T] is [undefined],
    [null] or a [T].  Methods run in a state monad over the component, the
    store of host tables and the log of calls made to them; a [throw] keeps
    the state reached so far, as in JavaScript. *)

From Stdlib Require Import Ascii String.
From stdpp Require Import base decidable option list strings gmap.

Open Scope string_scope.

(** ** JavaScript values *)

(** A TypeScript type [T] without strict null checks. *)
Inductive Js (A : Type) : Type :=
  | undefined
  | null
  | val (a : A).

Arguments undefined {A}.
Arguments null {A}.
Arguments val {A} a.

#[global] Instance Js_eq_dec {A} `{EqDecision A} : EqDecision (Js A).
Proof. solve_decision. Defined.

(** Truthiness of a reference (an object or a function): present references
    are truthy, [undefined] and [null] are falsy. *)
Definition truthy {A} (x : Js A) : bool :=
  match x with
  | val _ => true
  | undefined | null => false
  end.

(** [a || b] on references. *)
Definition jsOr {A} (a b : Js A) : Js A :=
  if truthy a then a else b.

(** Values found in the properties of a row object. *)
Inductive JsValue : Type :=
  | VUndefined
  | VNull
  | VBool (b : bool)
  | VNumber (n : Z)
  | VString (s : string).

#[global] Instance JsValue_eq_dec : EqDecision JsValue.
Proof. solve_decision. Defined.

(** A row of the table: a plain object, seen as the map of its own data
    properties. *)
Abbreviation RowData := (gmap string JsValue).

(** The property key a [string]-typed value denotes in [obj[key]]. *)
Definition toPropertyKey (k : Js string) : string :=
  match k with
  | undefined => "undefined"
  | null => "null"
  | val s => s
  end.

(** [data[key]]: an absent property reads as [undefined]. *)
Definition getProperty (data : RowData) (key : Js string) : JsValue :=
  default VUndefined (data !! toPropertyKey key).

(** [String.prototype.toUpperCase] on the ASCII letters; any other character
    is left as it is (the Unicode case tables are not modelled). *)
Definition upperChar (c : ascii) : ascii :=
  let n := nat_of_ascii c in
  if (97 <=? n)%nat && (n <=? 122)%nat then ascii_of_nat (n - 32) else c.

Fixpoint toUpperCase (s : string) : string :=
  match s with
  | EmptyString => EmptyString
  | String c rest => String (upperChar c) (toUpperCase rest)
  end.

(** ** The types of the component *)

(** [(name: string) => string] *)
Definition HeaderTextTransform : Type := Js string -> Js string.

(** [(data: T, name: string) => string] *)
Definition Accessor : Type := RowData -> Js string -> JsValue.

(** [interface TextColumnOptions<T>]: both members are optional. *)
Record TextColumnOptions : Type := {
  defaultHeaderTextTransform : Js HeaderTextTransform;
  defaultDataAccessor : Js Accessor;
}.

(** The object literal [{}]. *)
Definition emptyOptions : TextColumnOptions :=
  {| defaultHeaderTextTransform := undefined; defaultDataAccessor := undefined |}.

(** Identity of a column definition object, and of a host table object. *)
Definition DefRef : Type := positive.
Definition TableRef : Type := positive.

(** The template markers [CdkCellDef] and [CdkHeaderCellDef] of ./cell: each
    stands for one template. *)
Inductive CdkCellDef : Type := CellDef (template : positive).
Inductive CdkHeaderCellDef : Type := HeaderCellDef (template : positive).

#[global] Instance CdkCellDef_eq_dec : EqDecision CdkCellDef.
Proof. solve_decision. Defined.
#[global] Instance CdkHeaderCellDef_eq_dec : EqDecision CdkHeaderCellDef.
Proof. solve_decision. Defined.

(** The fields of [CdkColumnDef] (./cell) that the text column touches.
    [ref] is the identity of the object: the host table keeps references to
    column definitions, not copies. *)
Module CdkColumnDef.
Record t : Type := mk {
  ref : DefRef;
  name : Js string;
  cell : Js CdkCellDef;
  headerCell : Js CdkHeaderCellDef;
}.

#[global] Instance eq_dec : EqDecision t.
Proof. solve_decision. Defined.

Definition set_name (v : Js string) (d : t) : t :=
  mk (ref d) v (cell d) (headerCell d).
Definition set_cell (v : Js CdkCellDef) (d : t) : t :=
  mk (ref d) (name d) v (headerCell d).
Definition set_headerCell (v : Js CdkHeaderCellDef) (d : t) : t :=
  mk (ref d) (name d) (cell d) v.
End CdkColumnDef.

(** ['start'|'end'] *)
Inductive Justify : Type := justify_start | justify_end.

(** The fields of a [CdkTextColumn].  [columnDef], [cell] and [headerCell]
    are the static view children of the component's own template; [_table]
    and [_options] are the constructor's private parameter properties. *)
Record CdkTextColumn : Type := {
  _name : Js string;
  headerText : Js string;
  dataAccessor : Js Accessor;
  justify : Justify;
  columnDef : CdkColumnDef.t;
  cell : Js CdkCellDef;
  headerCell : Js CdkHeaderCellDef;
  _table : Js TableRef;
  _options : TextColumnOptions;
}.

Definition set__name (v : Js string) (c : CdkTextColumn) : CdkTextColumn :=
  {| _name := v; headerText := headerText c; dataAccessor := dataAccessor c;
     justify := justify c; columnDef := columnDef c; cell := cell c;
     headerCell := headerCell c; _table := _table c; _options := _options c |}.

Definition set_headerText (v : Js string) (c : CdkTextColumn) : CdkTextColumn :=
  {| _name := _name c; headerText := v; dataAccessor := dataAccessor c;
     justify := justify c; columnDef := columnDef c; cell := cell c;
     headerCell := headerCell c; _table := _table c; _options := _options c |}.

Definition set_dataAccessor (v : Js Accessor) (c : CdkTextColumn) : CdkTextColumn :=
  {| _name := _name c; headerText := headerText c; dataAccessor := v;
     justify := justify c; columnDef := columnDef c; cell := cell c;
     headerCell := headerCell c; _table := _table c; _options := _options c |}.

Definition set_columnDef (v : CdkColumnDef.t) (c : CdkTextColumn) : CdkTextColumn :=
  {| _name := _name c; headerText := headerText c; dataAccessor := dataAccessor c;
     justify := justify c; columnDef := v; cell := cell c;
     headerCell := headerCell c; _table := _table c; _options := _options c |}.

(** ** Errors and completions *)

Inductive Error : Type :=
  | TypeError
  | MissingParentTableError.

#[global] Instance Error_eq_dec : EqDecision Error.
Proof. solve_decision. Defined.

(** Modelled from the spec: ./table-errors is not among the sources.
    [getTableTextColumnMissingParentTableError()] builds the named error
    ([MissingParentTableError]) of a text column used without a host table. *)
Definition getTableTextColumnMissingParentTableError : Error :=
  MissingParentTableError.

Inductive Completion (A : Type) : Type :=
  | Normal (a : A)
  | Throw (e : Error).

Arguments Normal {A} a.
Arguments Throw {A} e.

(** ** The host table *)

(** The two methods of [CdkTable] (./table) that a text column calls.  Both
    are synchronous and return nothing: they only change the table. *)
Class HostTable (Tbl : Type) : Type := {
  addColumnDef : CdkColumnDef.t -> Tbl -> Tbl;
  removeColumnDef : CdkColumnDef.t -> Tbl -> Tbl;
}.

(** A call made to a host table. *)
Inductive TableCall : Type :=
  | AddColumnDef (table : TableRef) (def : CdkColumnDef.t)
  | RemoveColumnDef (table : TableRef) (def : CdkColumnDef.t).

#[global] Instance TableCall_eq_dec : EqDecision TableCall.
Proof. solve_decision. Defined.

Section TextColumn.

Context {Tbl : Type} `{HostTable Tbl}.

(** ** The state the methods run in *)

(** [self] is the component ([this]); [tables] holds the host tables, by
    reference; [calls] logs the calls made to them, oldest first. *)
Record World : Type := {
  self : CdkTextColumn;
  tables : gmap TableRef Tbl;
  calls : list TableCall;
}.

Definition M (A : Type) : Type := World -> Completion A * World.

Definition ret {A} (a : A) : M A := fun w => (Normal a, w).

Definition throw {A} (e : Error) : M A := fun w => (Throw e, w).

Definition bind {A B} (m : M A) (k : A -> M B) : M B :=
  fun w =>
    match m w with
    | (Normal a, w') => k a w'
    | (Throw e, w') => (Throw e, w')
    end.

Definition getThis : M CdkTextColumn := fun w => (Normal (self w), w).

Definition modifyThis (f : CdkTextColumn -> CdkTextColumn) : M unit :=
  fun w => (Normal tt, {| self := f (self w); tables := tables w; calls := calls w |}).

(** A method call on the table [t]: logged, and applied to the table. *)
Definition callTable (c : TableCall) : M unit :=
  fun w =>
    let tables' :=
      match c with
      | AddColumnDef t def => alter (addColumnDef def) t (tables w)
      | RemoveColumnDef t def => alter (removeColumnDef def) t (tables w)
      end in
    (Normal tt, {| self := self w; tables := tables'; calls := calls w ++ [c] |}).

Declare Scope js_scope.
Delimit Scope js_scope with js.
Notation "x <- m ;; k" := (bind m (fun x => k))
  (at level 100, m at next level, right associativity) : js_scope.
Notation "m ;; k" := (bind m (fun _ => k))
  (at level 100, right associativity) : js_scope.
Open Scope js_scope.

(** ** String operations that can fault *)

(** [s[0]]: a [TypeError] on [undefined] and [null]; [undefined] past the end. *)
Definition index0 (s : Js string) : M (Js string) :=
  match s with
  | undefined | null => throw TypeError
  | val EmptyString => ret undefined
  | val (String c _) => ret (val (String c EmptyString))
  end.

(** [s.toUpperCase()] *)
Definition callToUpperCase (s : Js string) : M string :=
  match s with
  | undefined | null => throw TypeError
  | val s => ret (toUpperCase s)
  end.

(** [s.slice(1)] *)
Definition slice1 (s : Js string) : M string :=
  match s with
  | undefined | null => throw TypeError
  | val EmptyString => ret EmptyString
  | val (String _ rest) => ret rest
  end.

(** ** The component *)

(** [constructor(_table, _options)]: [this._options = _options || {}].  The
    template system has created the static view children [columnDef], [cell]
    and [headerCell] by the time any input is set; a freshly created column
    definition has no name and no templates yet. *)
Definition constructor (_table : Js TableRef) (_options : Js TextColumnOptions)
    (def : DefRef) (cell : Js CdkCellDef) (headerCell : Js CdkHeaderCellDef)
    : CdkTextColumn :=
  {| _name := undefined;
     headerText := undefined;
     dataAccessor := undefined;
     justify := justify_start;
     columnDef := CdkColumnDef.mk def undefined undefined undefined;
     cell := cell;
     headerCell := headerCell;
     _table := _table;
     _options := match jsOr _options (val emptyOptions) with
                 | val o => o
                 | undefined | null => emptyOptions
                 end |}.

(** [get name()] *)
Definition name (c : CdkTextColumn) : Js string := _name c.

(** [set name(name)] *)
Definition set_name (name : Js string) : M unit :=
  modifyThis (set__name name) ;;
  modifyThis (fun this => set_columnDef (CdkColumnDef.set_name name (columnDef this)) this).

(** [(data, name) => data[name]] *)
Definition propertyAccessor : Accessor := fun data name => getProperty data name.

(** [_createDefaultHeaderText()].  [this._options] is an object since the
    constructor, so the first conjunct of the test holds. *)
Definition _createDefaultHeaderText : M (Js string) :=
  this <- getThis ;;
  match defaultHeaderTextTransform (_options this) with
  | val transform => ret (transform (name this))
  | undefined | null =>
      first <- index0 (name this) ;;
      upper <- callToUpperCase first ;;
      rest <- slice1 (name this) ;;
      ret (val (upper ++ rest))
  end.

(** [ngOnInit()] *)
Definition ngOnInit : M unit :=
  this <- getThis ;;
  match headerText this with
  | undefined =>
      text <- _createDefaultHeaderText ;;
      modifyThis (set_headerText text)
  | null | val _ => ret tt
  end ;;
  this <- getThis ;;
  (if negb (truthy (dataAccessor this)) then
     modifyThis (set_dataAccessor
       (jsOr (defaultDataAccessor (_options this)) (val propertyAccessor)))
   else ret tt) ;;
  this <- getThis ;;
  match _table this with
  | val table =>
      modifyThis (fun this =>
        set_columnDef (CdkColumnDef.set_cell (cell this) (columnDef this)) this) ;;
      modifyThis (fun this =>
        set_columnDef (CdkColumnDef.set_headerCell (headerCell this) (columnDef this)) this) ;;
      this <- getThis ;;
      callTable (AddColumnDef table (columnDef this))
  | undefined | null => throw getTableTextColumnMissingParentTableError
  end.

(** [ngOnDestroy()] *)
Definition ngOnDestroy : M unit :=
  this <- getThis ;;
  match _table this with
  | val table => callTable (RemoveColumnDef table (columnDef this))
  | undefined | null => ret tt
  end.

(** The cell template's binding [{{dataAccessor(data, name)}}]. *)
Definition cellText (data : RowData) : M JsValue :=
  this <- getThis ;;
  match dataAccessor this with
  | val accessor => ret (accessor data (name this))
  | undefined | null => throw TypeError
  end.

End TextColumn.

(** [ngOnInit] gets past the defaulting of the header text: the text is
    already set, or a transform is configured, or [name] has a first
    character. *)
Definition headerTextResolves (this : CdkTextColumn) : bool :=
  match headerText this with
  | undefined =>
      truthy (defaultHeaderTextTransform (_options this))
      || match name this with
         | val (String _ _) => true
         | _ => false
         end
  | null | val _ => true
  end.

(** The column definition as [ngOnInit] hands it to the host table. *)
Definition wiredColumnDef (this : CdkTextColumn) : CdkColumnDef.t :=
  CdkColumnDef.set_headerCell (headerCell this)
    (CdkColumnDef.set_cell (cell this) (columnDef this)).

(** ** The column registry of the host table *)

(** Modelled from the spec: ./table ([CdkTable]) is not among the sources.
    The host table maintains "the ordered, name-keyed set of columns", holding
    a non-owning reference to each registered definition, in insertion order.
    [addColumnDef(def)] "inserts def keyed by def.name"; what happens on a
    name that is already registered is "implementation-defined but must be
    deterministic".  [removeColumnDef(def)] "removes the entry matching def
    (by identity or name, implementation's choice, but must be consistent)". *)
Abbreviation Registry := (list (Js string * DefRef)).

(** The two ways an entry can match a definition. *)
Inductive Matching : Type := ByIdentity | ByName.

(** The choices the spec leaves to the implementation of the table. *)
Record TablePolicy : Type := {
  matching : Matching;
  onDuplicate : CdkColumnDef.t -> Registry -> Registry;
}.

Definition matches (m : Matching) (def : CdkColumnDef.t)
    (entry : Js string * DefRef) : Prop :=
  match m with
  | ByIdentity => entry.2 = CdkColumnDef.ref def
  | ByName => entry.1 = CdkColumnDef.name def
  end.

#[global] Instance matches_dec m def entry : Decision (matches m def entry).
Proof. destruct m; cbn; apply _. Defined.

Definition registry_add (p : TablePolicy) (def : CdkColumnDef.t) (R : Registry)
    : Registry :=
  if decide (CdkColumnDef.name def ∈ R.*1) then onDuplicate p def R
  else (R ++ [(CdkColumnDef.name def, CdkColumnDef.ref def)])%list.

Definition registry_remove (p : TablePolicy) (def : CdkColumnDef.t) (R : Registry)
    : Registry :=
  filter (fun entry => ¬ matches (matching p) def entry) R.

Definition registryTable (p : TablePolicy) : HostTable Registry := {|
  addColumnDef := registry_add p;
  removeColumnDef := registry_remove p;
|}.

(** A table that matches by identity, or by name, and keeps the original
    entry of a name that is registered again. *)
Definition keepOriginal (m : Matching) : TablePolicy :=
  {| matching := m; onDuplicate := fun _ R => R |}.

(** The table of the sample worlds matches by identity. *)
#[global] Instance Registry_table : HostTable Registry :=
  registryTable (keepOriginal ByIdentity).

(** [ngOnInit] followed by [ngOnDestroy], in host tables that follow [p]. *)
Definition initThenDestroy (p : TablePolicy) (w : World (Tbl := Registry))
    : World (Tbl := Registry) :=
  (ngOnDestroy (H := registryTable p) (ngOnInit (H := registryTable p) w).2).2.

(** ** Sample worlds *)

(** A stand-alone text column: no host table, no options, nothing set. *)
Definition orphanColumn : CdkTextColumn :=
  constructor null null 7%positive (val (CellDef 1)) (val (HeaderCellDef 2)).

Definition orphanWorld : World (Tbl := Registry) :=
  {| self := orphanColumn; tables := {[ 1%positive := [] ]}; calls := [] |}.

(** A text column inside the host table [1], which already shows a column
    [age]. *)
Definition hostedColumn (_options : Js TextColumnOptions) : CdkTextColumn :=
  constructor (val 1%positive) _options 7%positive
    (val (CellDef 1)) (val (HeaderCellDef 2)).

Definition hostedWorld (_options : Js TextColumnOptions) : World (Tbl := Registry) :=
  {| self := hostedColumn _options;
     tables := {[ 1%positive := [(val "age", 3%positive)] ]};
     calls := [] |}.

(** The same column once it has been named [v]. *)
Definition namedWorld (_options : Js TextColumnOptions) (v : string)
    : World (Tbl := Registry) :=
  (set_name (val v) (hostedWorld _options)).2.

(** The column [id] after a first [ngOnInit]: its definition is registered. *)
Definition registeredWorld : World (Tbl := Registry) :=
  (ngOnInit (namedWorld null "id")).2.

(** The column [id] in a table where another definition is registered as
    [id]. *)
Definition takenNameWorld : World (Tbl := Registry) :=
  {| self := self (namedWorld null "id");
     tables := {[ 1%positive := [(val "age", 3%positive); (val "id", 9%positive)] ]};
     calls := [] |}.

(** The stand-alone column once it has been named [id]. *)
Definition namedOrphanWorld : World (Tbl := Registry) :=
  (set_name (val "id") orphanWorld).2.

(** The column [id] with the empty string as [headerText] and [null] as
    [dataAccessor]. *)
Definition blankHeaderWorld : World (Tbl := Registry) :=
  {| self := set_dataAccessor null
               (set_headerText (val EmptyString) (self (namedWorld null "id")));
     tables := tables (namedWorld null "id");
     calls := [] |}.

(** The row [{ id: 42, name: "Ann" }]. *)
Definition annRow : RowData :=
  {[ "id" := VNumber 42; "name" := VString "Ann" ]}.

(** ** Inputs and hooks, in sequence *)

Definition set_justify (v : Justify) (c : CdkTextColumn) : CdkTextColumn :=
  {| _name := _name c; headerText := headerText c; dataAccessor := dataAccessor c;
     justify := v; columnDef := columnDef c; cell := cell c;
     headerCell := headerCell c; _table := _table c; _options := _options c |}.

(** What a template and the framework do to a text column: bind one of its
    four inputs ([name], [headerText], [dataAccessor], [justify]) or run one
    of its two hooks. *)
Inductive Action : Type :=
  | AssignName (v : Js string)
  | AssignHeaderText (v : Js string)
  | AssignDataAccessor (v : Js Accessor)
  | AssignJustify (v : Justify)
  | RunNgOnInit
  | RunNgOnDestroy.

Section Actions.

Context {Tbl : Type} `{HostTable Tbl}.

(** [name] goes through its setter; the other inputs are plain fields. *)
Definition perform (a : Action) : M unit :=
  match a with
  | AssignName v => set_name v
  | AssignHeaderText v => modifyThis (set_headerText v)
  | AssignDataAccessor v => modifyThis (set_dataAccessor v)
  | AssignJustify v => modifyThis (set_justify v)
  | RunNgOnInit => ngOnInit
  | RunNgOnDestroy => ngOnDestroy
  end.

(** The state a sequence of actions leaves, whether or not a hook threw on
    the way: an error in a hook does not undo what came before, nor prevent
    what comes after. *)
Definition performAll (actions : list Action) (w : World) : World :=
  fold_left (fun w a => (perform a w).2) actions w.

(** The call goes to the table [table] and passes the definition [def]. *)
Definition callOn (table : TableRef) (def : DefRef) (c : TableCall) : Prop :=
  match c with
  | AddColumnDef t d | RemoveColumnDef t d =>
      t = table /\ CdkColumnDef.ref d = def
  end.

(** What no action changes: the host table, the options, the templates and
    the identity of the column definition. *)
Definition sameWiring (w w' : World (Tbl := Tbl)) : Prop :=
  _table (self w') = _table (self w)
  /\ _options (self w') = _options (self w)
  /\ cell (self w') = cell (self w)
  /\ headerCell (self w') = headerCell (self w)
  /\ CdkColumnDef.ref (columnDef (self w')) = CdkColumnDef.ref (columnDef (self w)).

End Actions.

(** Options that configure both defaults: a fixed header text, and the
    property lookup as accessor. *)
Definition bothOptions : TextColumnOptions :=
  {| defaultHeaderTextTransform := val (fun _ => val "Column");
     defaultDataAccessor := val propertyAccessor |}.

(** An accessor that shows the same text in every row. *)
Definition constantAccessor (text : string) : Accessor :=
  fun _ _ => VString text.

(** The column [id] under [bothOptions], with an accessor of its own. *)
Definition givenAccessorWorld : World (Tbl := Registry) :=
  {| self := set_dataAccessor (val (constantAccessor "-"))
               (self (namedWorld (val bothOptions) "id"));
     tables := tables (namedWorld (val bothOptions) "id");
     calls := [] |}.

(** A column is named, initialized, renamed and destroyed. *)
Definition renamingActions : list Action :=
  [AssignName (val "id"); RunNgOnInit; AssignName (val "name"); RunNgOnDestroy].

(** * Properties *)

(** Unfolds a method down to the state it computes. *)
Ltac run :=
  unfold ngOnInit, ngOnDestroy, _createDefaultHeaderText, set_name, cellText,
    index0, callToUpperCase, slice1, callTable, modifyThis, getThis,
    bind, ret, throw, getTableTextColumnMissingParentTableError, name,
    headerTextResolves, wiredColumnDef, jsOr in *;
  cbn in *.

(** Splits a world into the fields of its component. *)
Ltac split_world w :=
  let this := fresh "this" in let o := fresh "o" in
  let n := fresh "n" in let h := fresh "h" in let a := fresh "a" in
  let j := fresh "j" in let d := fresh "d" in let c := fresh "c" in
  let hc := fresh "hc" in let t := fresh "t" in
  let f := fresh "f" in let g := fresh "g" in
  let tbls := fresh "tbls" in let log := fresh "log" in
  destruct w as [this tbls log];
  destruct this as [n h a j d c hc t o];
  destruct o as [f g].

(** One branch of the method: a case analysis on the field it tests next. *)
Ltac branch :=
  match goal with
  | |- context [truthy ?x] => is_var x; destruct x
  | H : context [truthy ?x] |- _ => is_var x; destruct x
  | |- context [match ?x with _ => _ end] => is_var x; destruct x
  | H : context [match ?x with _ => _ end] |- _ => is_var x; destruct x
  end.

(** Runs a method on [w] along each of its paths. *)
Ltac by_cases w := split_world w; run; repeat (branch; cbn in * ).

Section Lifecycle.

Context {Tbl : Type} `{HostTable Tbl}.

Implicit Types (w : World (Tbl := Tbl)) (this : CdkTextColumn).

(** *** The ways [ngOnInit] ends *)

Lemma ngOnInit_outcome w :
  (ngOnInit w).1 =
    if headerTextResolves (self w) then
      if truthy (_table (self w)) then Normal tt
      else Throw MissingParentTableError
    else Throw TypeError.
Proof. by_cases w; reflexivity. Qed.

(** A run is determined by where it starts. *)
Lemma run_inv {A} (m : M A) w (r : Completion A) w' :
  m w = (r, w') -> r = (m w).1 /\ w' = (m w).2.
Proof. intros ->. split; reflexivity. Qed.

(** With no header text and no transform, the defaulting goes through only
    for a name that has a first character. *)
Lemma headerTextResolves_name this :
  headerText this = undefined ->
  truthy (defaultHeaderTextTransform (_options this)) = false ->
  headerTextResolves this = true ->
  exists c rest, name this = val (String c rest).
Proof.
  unfold headerTextResolves. intros -> ->. cbn.
  destruct (name this) as [| |[|c rest]]; try discriminate. eauto.
Qed.

(** *** The header text after [ngOnInit] *)

Lemma ngOnInit_headerText_kept w :
  headerText (self w) <> undefined ->
  headerText (self (ngOnInit w).2) = headerText (self w).
Proof. by_cases w; intros Hset; congruence. Qed.

Lemma ngOnInit_headerText_transform w transform :
  headerText (self w) = undefined ->
  defaultHeaderTextTransform (_options (self w)) = val transform ->
  headerText (self (ngOnInit w).2) = transform (name (self w)).
Proof. by_cases w; intros Hunset Hopt; congruence. Qed.

Lemma ngOnInit_headerText_capitalized w c rest :
  headerText (self w) = undefined ->
  truthy (defaultHeaderTextTransform (_options (self w))) = false ->
  name (self w) = val (String c rest) ->
  headerText (self (ngOnInit w).2) = val (toUpperCase (String c EmptyString) ++ rest).
Proof. by_cases w; intros Hunset Hopt Hname; congruence. Qed.

(** *** The data accessor after [ngOnInit] *)

Lemma ngOnInit_dataAccessor_default w :
  headerTextResolves (self w) = true ->
  truthy (dataAccessor (self w)) = false ->
  dataAccessor (self (ngOnInit w).2)
    = jsOr (defaultDataAccessor (_options (self w))) (val propertyAccessor).
Proof. by_cases w; intros Hres Hunset; congruence. Qed.

Lemma ngOnInit_dataAccessor_kept w :
  truthy (dataAccessor (self w)) = true ->
  dataAccessor (self (ngOnInit w).2) = dataAccessor (self w).
Proof. by_cases w; intros Hset; congruence. Qed.

(** *** The host tables after [ngOnInit] and [ngOnDestroy] *)

(** [ngOnInit] never touches the host table it does not have. *)
Lemma ngOnInit_no_table_frame w :
  truthy (_table (self w)) = false ->
  tables (ngOnInit w).2 = tables w /\ calls (ngOnInit w).2 = calls w.
Proof. by_cases w; intros Ht; try discriminate; auto. Qed.

(** What [ngOnInit] does to the tables of a hosted column: it registers the
    wired definition, unless the header text faults first. *)
Lemma ngOnInit_hosted w table :
  _table (self w) = val table ->
  _table (self (ngOnInit w).2) = val table
  /\ ((tables (ngOnInit w).2
         = alter (addColumnDef (wiredColumnDef (self w))) table (tables w)
       /\ columnDef (self (ngOnInit w).2) = wiredColumnDef (self w))
      \/ (tables (ngOnInit w).2 = tables w
          /\ columnDef (self (ngOnInit w).2) = columnDef (self w))).
Proof.
  by_cases w; intros [= <-]; split; try reflexivity;
    first [left; split; reflexivity | right; split; reflexivity].
Qed.

(** What [ngOnDestroy] does to the tables. *)
Lemma ngOnDestroy_tables w :
  tables (ngOnDestroy w).2 =
    match _table (self w) with
    | val table => alter (removeColumnDef (columnDef (self w))) table (tables w)
    | undefined | null => tables w
    end.
Proof. by_cases w; reflexivity. Qed.

(** *** The properties of the component *)




(** C6. [ngOnDestroy] with a host table calls [removeColumnDef] on it with the
    column definition the component owns, and does nothing else; without a
    host table it returns without changing anything. *)
Theorem ngOnDestroy_effect w :
  (forall table,
     _table (self w) = val table ->
     ngOnDestroy w =
       (Normal tt,
        {| self := self w;
           tables := alter (removeColumnDef (columnDef (self w))) table (tables w);
           calls := calls w ++ [RemoveColumnDef table (columnDef (self w))] |}))
  /\ (truthy (_table (self w)) = false -> ngOnDestroy w = (Normal tt, w)).
Proof.
  destruct w as [this tbls log]; run.
  split.
  - intros table ->. reflexivity.
  - destruct (_table this); [reflexivity | reflexivity | discriminate].
Qed.

(** C7. A component constructed without options ([null] or [undefined]) is
    the component constructed with [{}], so every later step, [ngOnInit] and
    its defaults included, runs the same on both. *)
Theorem constructor_absent_options_is_empty
    (_options : Js TextColumnOptions) (table : Js TableRef) (def : DefRef)
    (c : Js CdkCellDef) (hc : Js CdkHeaderCellDef) :
  truthy _options = false ->
  constructor table _options def c hc = constructor table (val emptyOptions) def c hc
  /\ forall (tbls : gmap TableRef Tbl) (log : list TableCall) (v : Js string),
       bind (set_name v) (fun _ => ngOnInit)
         {| self := constructor table _options def c hc;
            tables := tbls; calls := log |}
       = bind (set_name v) (fun _ => ngOnInit)
           {| self := constructor table (val emptyOptions) def c hc;
              tables := tbls; calls := log |}.
Proof.
  intros Hopt.
  assert (constructor table _options def c hc
          = constructor table (val emptyOptions) def c hc) as ->.
  { destruct _options; [reflexivity | reflexivity | discriminate]. }
  split; reflexivity.
Qed.

(** C8. With no [headerText], no [defaultHeaderTextTransform] and a [name]
    that is empty or was never assigned, [_createDefaultHeaderText] faults
    with a type error, and so does [ngOnInit]: no header text is produced and
    the state is the one before the call.  For the empty name it is
    [name[0]] that is [undefined], and the call of [toUpperCase] on it that
    faults. *)
Theorem ngOnInit_empty_name_faults w :
  headerText (self w) = undefined ->
  truthy (defaultHeaderTextTransform (_options (self w))) = false ->
  name (self w) = val EmptyString \/ name (self w) = undefined ->
  _createDefaultHeaderText w = (Throw TypeError, w)
  /\ ngOnInit w = (Throw TypeError, w)
  /\ (name (self w) = val EmptyString ->
      index0 (name (self w)) w = (Normal undefined, w)
      /\ callToUpperCase undefined w = (Throw TypeError, w)).
Proof.
  intros Hunset Hopt Hname.
  split; [| split].
  - destruct Hname as [Hname | Hname]; by_cases w; congruence.
  - destruct Hname as [Hname | Hname]; by_cases w; congruence.
  - intros ->. split; reflexivity.
Qed.


(** C9. When [ngOnInit] raises the missing-table error, no table has been
    called or changed, but the component has: its [headerText] and
    [dataAccessor] hold the defaults assigned before the check, so a component
    that came without a [dataAccessor], or without a header text to
    capitalize its name into, is not the one it was. *)
Theorem ngOnInit_missing_table_not_atomic w w' :
  ngOnInit w = (Throw MissingParentTableError, w') ->
  tables w' = tables w
  /\ calls w' = calls w
  /\ (headerText (self w) = undefined ->
      (forall transform,
         defaultHeaderTextTransform (_options (self w)) = val transform ->
         headerText (self w') = transform (name (self w)))
      /\ (truthy (defaultHeaderTextTransform (_options (self w))) = false ->
          exists c rest,
            name (self w) = val (String c rest)
            /\ headerText (self w') = val (toUpperCase (String c EmptyString) ++ rest)
            /\ self w' <> self w))
  /\ truthy (dataAccessor (self w')) = true
  /\ (truthy (dataAccessor (self w)) = false ->
      dataAccessor (self w')
        = jsOr (defaultDataAccessor (_options (self w))) (val propertyAccessor)
      /\ self w' <> self w).
Proof.
  intros Hrun. destruct (run_inv _ _ _ _ Hrun) as [Hret ->].
  rewrite ngOnInit_outcome in Hret.
  destruct (headerTextResolves (self w)) eqn:Hres; [| discriminate].
  destruct (truthy (_table (self w))) eqn:Ht; [discriminate |].
  destruct (ngOnInit_no_table_frame w Ht) as [Htables Hcalls].
  split; [exact Htables |]. split; [exact Hcalls |].
  split; [intros Hunset; split | split].
  - intros transform Hopt. apply ngOnInit_headerText_transform; assumption.
  - intros Hopt.
    destruct (headerTextResolves_name _ Hunset Hopt Hres) as (c & rest & Hname).
    pose proof (ngOnInit_headerText_capitalized w c rest Hunset Hopt Hname)
      as Htext.
    exists c, rest. split; [exact Hname |]. split; [exact Htext |].
    intros Hsame. rewrite Hsame, Hunset in Htext. discriminate.
  - destruct (truthy (dataAccessor (self w))) eqn:Ha.
    + rewrite ngOnInit_dataAccessor_kept; assumption.
    + rewrite ngOnInit_dataAccessor_default by assumption.
      unfold jsOr. destruct (defaultDataAccessor (_options (self w))); reflexivity.
  - intros Ha.
    pose proof (ngOnInit_dataAccessor_default w Hres Ha) as Hdefault.
    split; [exact Hdefault |].
    intros Hsame. rewrite Hsame in Hdefault. rewrite Hdefault in Ha.
    unfold jsOr in Ha.
    destruct (defaultDataAccessor (_options (self w))); discriminate.
Qed.

(** C10. The two defaulting tests of [ngOnInit] differ.  A [headerText] is
    replaced only when it is [undefined]: any other value, the empty string
    included, is kept.  A [dataAccessor] is replaced whenever it is falsy:
    [null], like [undefined], gives way to the default. *)
Theorem ngOnInit_emptiness_tests w :
  (headerText (self w) <> undefined ->
   headerText (self (ngOnInit w).2) = headerText (self w))
  /\ (headerText (self w) = val EmptyString ->
      dataAccessor (self w) = null ->
      headerText (self (ngOnInit w).2) = val EmptyString
      /\ dataAccessor (self (ngOnInit w).2)
          = jsOr (defaultDataAccessor (_options (self w))) (val propertyAccessor))
  /\ (truthy (dataAccessor (self w)) = false ->
      headerTextResolves (self w) = true ->
      dataAccessor (self (ngOnInit w).2)
        = jsOr (defaultDataAccessor (_options (self w))) (val propertyAccessor)).
Proof.
  split; [| split].
  - apply ngOnInit_headerText_kept.
  - intros Hblank Hnull. split.
    + rewrite ngOnInit_headerText_kept; [exact Hblank | congruence].
    + apply ngOnInit_dataAccessor_default.
      * unfold headerTextResolves. rewrite Hblank. reflexivity.
      * rewrite Hnull. reflexivity.
  - intros Hunset Hres. apply ngOnInit_dataAccessor_default; assumption.
Qed.

End Lifecycle.

(** ** The round trip through the registry *)

Section RoundTrip.

Variable p : TablePolicy.

Implicit Types (R : Registry) (def : CdkColumnDef.t)
  (w : World (Tbl := Registry)).

(** A definition that is registered neither by itself nor by its name matches
    no entry. *)
Lemma matches_fresh def R entry :
  CdkColumnDef.name def ∉ R.*1 ->
  CdkColumnDef.ref def ∉ R.*2 ->
  entry ∈ R ->
  ¬ matches (matching p) def entry.
Proof.
  intros Hname Href Hin Hmatch.
  destruct (matching p); cbn in Hmatch.
  - apply Href. rewrite <- Hmatch. apply list_elem_of_fmap_2, Hin.
  - apply Hname. rewrite <- Hmatch. apply list_elem_of_fmap_2, Hin.
Qed.

(** Removing a definition that is not registered changes nothing. *)
Lemma registry_remove_fresh def R :
  CdkColumnDef.name def ∉ R.*1 ->
  CdkColumnDef.ref def ∉ R.*2 ->
  registry_remove p def R = R.
Proof.
  unfold registry_remove. induction R as [|entry R IH]; intros Hname Href.
  - reflexivity.
  - rewrite filter_cons_True
      by (apply (matches_fresh def (entry :: R)); [assumption .. | left]).
    f_equal. apply IH.
    + rewrite fmap_cons, not_elem_of_cons in Hname. tauto.
    + rewrite fmap_cons, not_elem_of_cons in Href. tauto.
Qed.

(** Adding a definition that is not registered, then removing it, gives the
    registry back. *)
Lemma registry_remove_add def R :
  CdkColumnDef.name def ∉ R.*1 ->
  CdkColumnDef.ref def ∉ R.*2 ->
  registry_remove p def (registry_add p def R) = R.
Proof.
  intros Hname Href. unfold registry_add.
  rewrite decide_False by assumption.
  unfold registry_remove. rewrite filter_app.
  fold (registry_remove p def R). rewrite registry_remove_fresh by assumption.
  rewrite filter_cons_False, filter_nil; [apply app_nil_r |].
  intros Hno. apply Hno. destruct (matching p); reflexivity.
Qed.

(** C5 (amended). For a component with a host table in whose registry [R]
    the component's column definition is not yet registered, neither itself
    nor another definition under its name, [ngOnInit] followed by
    [ngOnDestroy] leaves the registry equal to [R], and every other table as
    it was, whichever way the table matches entries and treats duplicates. *)
Theorem init_destroy_round_trip w (table : TableRef) R :
  _table (self w) = val table ->
  tables w !! table = Some R ->
  CdkColumnDef.name (columnDef (self w)) ∉ R.*1 ->
  CdkColumnDef.ref (columnDef (self w)) ∉ R.*2 ->
  tables (initThenDestroy p w) !! table = Some R
  /\ tables (initThenDestroy p w) = tables w.
Proof.
  intros Ht HR Hname Href.
  assert (tables (initThenDestroy p w) = tables w) as Heq;
    [| rewrite Heq; auto].
  unfold initThenDestroy. rewrite ngOnDestroy_tables.
  destruct (ngOnInit_hosted (H := registryTable p) w table Ht)
    as [-> [[-> ->]|[-> ->]]].
  - rewrite alter_alter_eq. apply alter_id.
    intros R' HR'. rewrite HR in HR'. injection HR' as <-.
    exact (registry_remove_add (wiredColumnDef (self w)) R Hname Href).
  - apply alter_id.
    intros R' HR'. rewrite HR in HR'. injection HR' as <-.
    exact (registry_remove_fresh (columnDef (self w)) R Hname Href).
Qed.

End RoundTrip.

(** ** The properties on the sample worlds *)





(** C5 does not hold of every registry: when the column is already
    registered, a second [ngOnInit] adds nothing and [ngOnDestroy] removes
    the column, so the registry is not the one before [ngOnInit]. *)
Lemma init_destroy_round_trip_fails_when_registered :
  _table (self registeredWorld) = val 1%positive
  /\ tables registeredWorld !! 1%positive
      = Some [(val "age", 3%positive); (val "id", 7%positive)]
  /\ tables (initThenDestroy (keepOriginal ByIdentity) registeredWorld) !! 1%positive
      = Some [(val "age", 3%positive)]
  /\ tables (initThenDestroy (keepOriginal ByIdentity) registeredWorld) !! 1%positive
      <> tables registeredWorld !! 1%positive.
Proof.
  split; [reflexivity |]. split; [reflexivity |]. split; [reflexivity |].
  vm_compute. discriminate.
Qed.

(** In a table that matches by name, the round trip of a column whose name
    is taken by another definition removes that definition. *)
Remark init_destroy_round_trip_needs_free_name :
  tables takenNameWorld !! 1%positive
    = Some [(val "age", 3%positive); (val "id", 9%positive)]
  /\ tables (initThenDestroy (keepOriginal ByName) takenNameWorld) !! 1%positive
      = Some [(val "age", 3%positive)].
Proof. split; reflexivity. Qed.

(** The column [id] joins the column [age] and leaves it behind alone. *)
Lemma init_destroy_round_trip_witness :
  _table (self (namedWorld null "id")) = val 1%positive
  /\ tables (namedWorld null "id") !! 1%positive = Some [(val "age", 3%positive)]
  /\ (CdkColumnDef.name (columnDef (self (namedWorld null "id")))
        ∉ [(val "age", 3%positive)].*1)
  /\ (CdkColumnDef.ref (columnDef (self (namedWorld null "id")))
        ∉ [(val "age", 3%positive)].*2)
  /\ tables (ngOnInit (namedWorld null "id")).2 !! 1%positive
      = Some [(val "age", 3%positive); (val "id", 7%positive)]
  /\ tables (initThenDestroy (keepOriginal ByIdentity) (namedWorld null "id"))
        !! 1%positive
      = Some [(val "age", 3%positive)].
Proof.
  assert (CdkColumnDef.name (columnDef (self (namedWorld null "id")))
          ∉ [(val "age", 3%positive)].*1) as Hname.
  { apply (bool_decide_unpack _). vm_compute. exact I. }
  assert (CdkColumnDef.ref (columnDef (self (namedWorld null "id")))
          ∉ [(val "age", 3%positive)].*2) as Href.
  { apply (bool_decide_unpack _). vm_compute. exact I. }
  split; [reflexivity |]. split; [reflexivity |].
  split; [exact Hname |]. split; [exact Href |].
  split; [reflexivity |].
  exact (proj1 (init_destroy_round_trip (keepOriginal ByIdentity)
                  (namedWorld null "id") 1%positive
                  [(val "age", 3%positive)] eq_refl eq_refl Hname Href)).
Defined.

(** Teardown of a registered column, and of a column without a host table. *)
Lemma ngOnDestroy_effect_witness :
  _table (self registeredWorld) = val 1%positive
  /\ truthy (_table (self orphanWorld)) = false
  /\ calls (ngOnDestroy registeredWorld).2
      = (calls registeredWorld
         ++ [RemoveColumnDef 1%positive (columnDef (self registeredWorld))])%list
  /\ tables (ngOnDestroy registeredWorld).2 !! 1%positive
      = Some [(val "age", 3%positive)]
  /\ ngOnDestroy orphanWorld = (Normal tt, orphanWorld).
Proof.
  destruct (ngOnDestroy_effect registeredWorld) as [Hhosted _].
  destruct (ngOnDestroy_effect orphanWorld) as [_ Horphan].
  split; [reflexivity |]. split; [reflexivity |].
  rewrite (Hhosted 1%positive eq_refl).
  split; [reflexivity |]. split; [reflexivity |].
  exact (Horphan eq_refl).
Defined.

(** The stand-alone column, built with [null] options, has the options [{}]. *)
Lemma constructor_absent_options_is_empty_witness :
  truthy (null : Js TextColumnOptions) = false
  /\ orphanColumn
      = constructor null (val emptyOptions) 7%positive
          (val (CellDef 1)) (val (HeaderCellDef 2)).
Proof.
  split; [reflexivity |].
  exact (proj1 (constructor_absent_options_is_empty (Tbl := Registry)
                  null null 7%positive (val (CellDef 1)) (val (HeaderCellDef 2))
                  eq_refl)).
Defined.

(** A column named by the empty string faults in [ngOnInit]. *)
Lemma ngOnInit_empty_name_faults_witness :
  headerText (self (namedWorld null EmptyString)) = undefined
  /\ truthy (defaultHeaderTextTransform (_options (self (namedWorld null EmptyString)))) = false
  /\ name (self (namedWorld null EmptyString)) = val EmptyString
  /\ ngOnInit (namedWorld null EmptyString) = (Throw TypeError, namedWorld null EmptyString).
Proof.
  split; [reflexivity |]. split; [reflexivity |]. split; [reflexivity |].
  exact (proj1 (proj2 (ngOnInit_empty_name_faults (namedWorld null EmptyString)
                         eq_refl eq_refl (or_introl eq_refl)))).
Defined.

(** The column [id] without a host table keeps the defaults it was given. *)
Lemma ngOnInit_missing_table_not_atomic_witness :
  ngOnInit namedOrphanWorld
    = (Throw MissingParentTableError, (ngOnInit namedOrphanWorld).2)
  /\ tables (ngOnInit namedOrphanWorld).2 = tables namedOrphanWorld
  /\ headerText (self (ngOnInit namedOrphanWorld).2) = val "Id"
  /\ dataAccessor (self (ngOnInit namedOrphanWorld).2) = val propertyAccessor
  /\ self (ngOnInit namedOrphanWorld).2 <> self namedOrphanWorld.
Proof.
  destruct (ngOnInit_missing_table_not_atomic namedOrphanWorld
              (ngOnInit namedOrphanWorld).2 eq_refl)
    as (Htables & _ & Hheader & _ & Haccessor).
  destruct (Hheader eq_refl) as [_ Hcapital].
  destruct (Hcapital eq_refl) as (c & rest & Hname & Htext & _).
  destruct (Haccessor eq_refl) as [Hdefault Hchanged].
  split; [reflexivity |]. split; [exact Htables |].
  split; [injection Hname as <- <-; exact Htext |].
  split; [exact Hdefault | exact Hchanged].
Defined.

(** An empty header text survives [ngOnInit]; a [null] accessor does not. *)
Lemma ngOnInit_emptiness_tests_witness :
  headerText (self blankHeaderWorld) = val EmptyString
  /\ dataAccessor (self blankHeaderWorld) = null
  /\ headerText (self (ngOnInit blankHeaderWorld).2) = val EmptyString
  /\ dataAccessor (self (ngOnInit blankHeaderWorld).2) = val propertyAccessor.
Proof.
  destruct (ngOnInit_emptiness_tests blankHeaderWorld) as (_ & Hboth & _).
  split; [reflexivity |]. split; [reflexivity |].
  exact (Hboth eq_refl eq_refl).
Defined.

(** ** Further properties of the component *)

Section Component.

Context {Tbl : Type} `{HostTable Tbl}.

Implicit Types (w : World (Tbl := Tbl)) (this : CdkTextColumn).






(** X5. A [dataAccessor] given as an input survives [ngOnInit], whatever the
    options configure and however [ngOnInit] ends. *)
Theorem ngOnInit_keeps_given_dataAccessor w (accessor : Accessor) :
  dataAccessor (self w) = val accessor ->
  dataAccessor (self (ngOnInit w).2) = val accessor.
Proof.
  intros Hset. rewrite ngOnInit_dataAccessor_kept; [exact Hset |].
  rewrite Hset. reflexivity.
Qed.

(** X6. [ngOnInit] writes [headerText], [dataAccessor] and the two templates
    of the column definition, and nothing else of the component: the name,
    the alignment, the host table, the options, and the name and identity of
    the column definition are as before; and no table but the component's
    own changes. *)
Theorem ngOnInit_frame w :
  name (self (ngOnInit w).2) = name (self w)
  /\ justify (self (ngOnInit w).2) = justify (self w)
  /\ _table (self (ngOnInit w).2) = _table (self w)
  /\ _options (self (ngOnInit w).2) = _options (self w)
  /\ cell (self (ngOnInit w).2) = cell (self w)
  /\ headerCell (self (ngOnInit w).2) = headerCell (self w)
  /\ CdkColumnDef.name (columnDef (self (ngOnInit w).2))
     = CdkColumnDef.name (columnDef (self w))
  /\ CdkColumnDef.ref (columnDef (self (ngOnInit w).2))
     = CdkColumnDef.ref (columnDef (self w))
  /\ forall other : TableRef,
       _table (self w) <> val other ->
       tables (ngOnInit w).2 !! other = tables w !! other.
Proof.
  by_cases w; repeat split; intros other Hother;
    try reflexivity; apply lookup_alter_ne; congruence.
Qed.


(** X8. A second [ngOnInit] ends as the first did and leaves the component as
    the first left it; but with a host table it calls [addColumnDef] once
    more, with the same definition. *)
Theorem ngOnInit_twice w :
  (ngOnInit (ngOnInit w).2).1 = (ngOnInit w).1
  /\ self (ngOnInit (ngOnInit w).2).2 = self (ngOnInit w).2
  /\ (forall table,
       _table (self w) = val table ->
       headerTextResolves (self w) = true ->
       calls (ngOnInit (ngOnInit w).2).2
         = (calls w ++ [AddColumnDef table (columnDef (self (ngOnInit w).2));
                        AddColumnDef table (columnDef (self (ngOnInit w).2))])%list).
Proof.
  split; [| split; [| intros table Ht Hres]];
    by_cases w; simplify_eq;
    repeat match goal with
      | |- context [match ?f ?x with _ => _ end] =>
          is_var f; destruct (f x) eqn:?; cbn
      end;
    try reflexivity; try congruence.
  all: try (rewrite <- app_assoc; reflexivity).
  all: match goal with E : ?f ?x = _ |- _ => rewrite E end; reflexivity.
Qed.


(** X10. The cell binding passes the current name.  After a rename the
    property lookup reads the row's property of the new name, while the
    header text that [ngOnInit] defaulted from the old name stays, and the
    host table is not told. *)
Theorem rename_after_ngOnInit w (v : string) (data : RowData) :
  (ngOnInit w).1 <> Throw TypeError ->
  truthy (dataAccessor (self w)) = false ->
  truthy (defaultDataAccessor (_options (self w))) = false ->
  let w' := (set_name (val v) (ngOnInit w).2).2 in
  (cellText data w').1 = Normal (default VUndefined (data !! v))
  /\ headerText (self w') = headerText (self (ngOnInit w).2)
  /\ calls w' = calls (ngOnInit w).2
  /\ tables w' = tables (ngOnInit w).2.
Proof.
  intros Hrun Hunset Hopt.
  assert (headerTextResolves (self w) = true) as Hres.
  { rewrite ngOnInit_outcome in Hrun.
    destruct (headerTextResolves (self w)); [reflexivity | congruence]. }
  pose proof (ngOnInit_dataAccessor_default w Hres Hunset) as Haccessor.
  unfold jsOr in Haccessor. rewrite Hopt in Haccessor.
  cbn [truthy] in Haccessor.
  destruct (ngOnInit w).2 as [this tbls log]. cbn [self] in Haccessor.
  unfold cellText, set_name, bind, modifyThis, getThis, ret. cbn.
  rewrite Haccessor. repeat split.
Qed.

(** X11. [ngOnDestroy] passes to [removeColumnDef] the very definition that
    [ngOnInit] passed to [addColumnDef]: after both, the log ends with the
    matched pair.  It does not ask whether [ngOnInit] got that far: after an
    [ngOnInit] that faulted on the header text, it still calls
    [removeColumnDef], for a definition that was never added. *)
Theorem ngOnInit_ngOnDestroy_calls w table :
  _table (self w) = val table ->
  (ngOnDestroy (ngOnInit w).2).1 = Normal tt
  /\ (headerTextResolves (self w) = true ->
      calls (ngOnDestroy (ngOnInit w).2).2
        = (calls w ++ [AddColumnDef table (columnDef (self (ngOnInit w).2));
                       RemoveColumnDef table (columnDef (self (ngOnInit w).2))])%list)
  /\ (headerTextResolves (self w) = false ->
      calls (ngOnDestroy (ngOnInit w).2).2
        = (calls w ++ [RemoveColumnDef table (columnDef (self w))])%list).
Proof.
  intros Ht. split; [| split; intros Hres];
    by_cases w; simplify_eq; try reflexivity;
    rewrite <- app_assoc; reflexivity.
Qed.

End Component.

(** ** Invariants of a column under any sequence of inputs and hooks *)

Section Sequences.

Context {Tbl : Type} `{HostTable Tbl}.

Implicit Types (w : World (Tbl := Tbl)) (a : Action) (actions : list Action).

Lemma performAll_cons a actions w :
  performAll (a :: actions) w = performAll actions (perform a w).2.
Proof. reflexivity. Qed.

Lemma perform_sameWiring a w : sameWiring w (perform a w).2.
Proof.
  unfold sameWiring.
  destruct a; cbn [perform];
    try (destruct w as [this tbls log]; run; repeat split; fail);
    by_cases w; repeat split.
Qed.

Lemma performAll_sameWiring actions w : sameWiring w (performAll actions w).
Proof.
  revert w. induction actions as [|a actions IH]; intros w.
  - unfold sameWiring. repeat split.
  - rewrite performAll_cons. specialize (IH (perform a w).2).
    pose proof (perform_sameWiring a w) as Hstep.
    unfold sameWiring in *.
    destruct IH as (-> & -> & -> & -> & ->). exact Hstep.
Qed.



Lemma perform_calls a w table :
  _table (self w) = val table ->
  exists new,
    calls (perform a w).2 = (calls w ++ new)%list
    /\ Forall (callOn table (CdkColumnDef.ref (columnDef (self w)))) new
    /\ forall other, other <> table -> tables (perform a w).2 !! other = tables w !! other.
Proof.
  intros Ht.
  destruct a; cbn [perform];
    try (exists []; destruct w as [this tbls log]; run;
         rewrite app_nil_r; repeat split; constructor).
  - by_cases w; simplify_eq;
      first [ exists []; rewrite app_nil_r; repeat split; constructor
            | eexists [_]; split; [reflexivity |]; split;
              [repeat constructor | intros other Hother; apply lookup_alter_ne; congruence] ].
  - by_cases w; simplify_eq.
    eexists [_]; split; [reflexivity |]; split;
      [repeat constructor | intros other Hother; apply lookup_alter_ne; congruence].
Qed.

(** X13. Whatever is done to a column that has a host table, every call it
    makes goes to that table and passes its own column definition, and no
    other table changes. *)
Theorem performAll_calls_own_table actions w table :
  _table (self w) = val table ->
  exists new,
    calls (performAll actions w) = (calls w ++ new)%list
    /\ Forall (callOn table (CdkColumnDef.ref (columnDef (self w)))) new
    /\ forall other,
         other <> table -> tables (performAll actions w) !! other = tables w !! other.
Proof.
  revert w. induction actions as [|a actions IH]; intros w Ht.
  - exists []. rewrite app_nil_r. repeat split. constructor.
  - rewrite performAll_cons.
    destruct (perform_calls a w table Ht) as (new1 & Hcalls1 & Hown1 & Hother1).
    destruct (perform_sameWiring a w) as (Ht' & _ & _ & _ & Href).
    rewrite Ht in Ht'.
    destruct (IH (perform a w).2 Ht') as (new2 & Hcalls2 & Hown2 & Hother2).
    exists (new1 ++ new2)%list. split; [| split].
    + rewrite Hcalls2, Hcalls1, app_assoc. reflexivity.
    + rewrite Href in Hown2. apply Forall_app. split; assumption.
    + intros other Hother. rewrite Hother2, Hother1 by assumption. reflexivity.
Qed.

Lemma perform_without_table a w :
  truthy (_table (self w)) = false ->
  calls (perform a w).2 = calls w /\ tables (perform a w).2 = tables w.
Proof.
  intros Ht.
  destruct a; cbn [perform];
    try (destruct w as [this tbls log]; run; split; reflexivity).
  - apply ngOnInit_no_table_frame in Ht. tauto.
  - by_cases w; try discriminate; split; reflexivity.
Qed.

(** X14. Whatever is done to a column that has no host table, it makes no
    call and no table changes. *)
Theorem performAll_without_table actions w :
  truthy (_table (self w)) = false ->
  calls (performAll actions w) = calls w
  /\ tables (performAll actions w) = tables w.
Proof.
  revert w. induction actions as [|a actions IH]; intros w Ht.
  - split; reflexivity.
  - rewrite performAll_cons.
    destruct (perform_without_table a w Ht) as [Hcalls Htables].
    destruct (perform_sameWiring a w) as (Ht' & _).
    rewrite <- Ht' in Ht.
    destruct (IH (perform a w).2 Ht) as [-> ->]. split; assumption.
Qed.

End Sequences.

(** ** The further properties on the sample worlds *)




(** An accessor given to the column wins over the configured default. *)
Lemma ngOnInit_keeps_given_dataAccessor_witness :
  dataAccessor (self givenAccessorWorld) = val (constantAccessor "-")
  /\ defaultDataAccessor (_options (self givenAccessorWorld)) = val propertyAccessor
  /\ dataAccessor (self (ngOnInit givenAccessorWorld).2) = val (constantAccessor "-").
Proof.
  split; [reflexivity |]. split; [reflexivity |].
  exact (ngOnInit_keeps_given_dataAccessor givenAccessorWorld
           (constantAccessor "-") eq_refl).
Defined.


(** The column [id], initialized twice, has called [addColumnDef] twice. *)
Lemma ngOnInit_twice_witness :
  _table (self (namedWorld null "id")) = val 1%positive
  /\ headerTextResolves (self (namedWorld null "id")) = true
  /\ length (calls (ngOnInit (ngOnInit (namedWorld null "id")).2).2) = 2.
Proof.
  destruct (ngOnInit_twice (namedWorld null "id")) as (_ & _ & Hcalls).
  split; [reflexivity |]. split; [reflexivity |].
  rewrite (Hcalls 1%positive eq_refl eq_refl). reflexivity.
Defined.


(** The column [id], renamed to [name] after [ngOnInit], shows Ann's name
    under the header [Id]. *)
Lemma rename_after_ngOnInit_witness :
  (ngOnInit (namedWorld null "id")).1 <> Throw TypeError
  /\ truthy (dataAccessor (self (namedWorld null "id"))) = false
  /\ truthy (defaultDataAccessor (_options (self (namedWorld null "id")))) = false
  /\ (cellText annRow
        (set_name (val "name") (ngOnInit (namedWorld null "id")).2).2).1
     = Normal (VString "Ann")
  /\ headerText
       (self (set_name (val "name") (ngOnInit (namedWorld null "id")).2).2)
     = val "Id".
Proof.
  assert ((ngOnInit (namedWorld null "id")).1 <> Throw TypeError) as Hrun
    by discriminate.
  destruct (rename_after_ngOnInit (namedWorld null "id") "name" annRow
              Hrun eq_refl eq_refl) as (Hcell & Hheader & _).
  split; [exact Hrun |]. split; [reflexivity |]. split; [reflexivity |].
  split; [exact Hcell | exact Hheader].
Defined.

(** The column [id] is added and removed with one and the same definition. *)
Lemma ngOnInit_ngOnDestroy_calls_witness :
  _table (self (namedWorld null "id")) = val 1%positive
  /\ headerTextResolves (self (namedWorld null "id")) = true
  /\ calls (ngOnDestroy (ngOnInit (namedWorld null "id")).2).2
     = [AddColumnDef 1%positive (columnDef (self registeredWorld));
        RemoveColumnDef 1%positive (columnDef (self registeredWorld))].
Proof.
  destruct (ngOnInit_ngOnDestroy_calls (namedWorld null "id") 1%positive eq_refl)
    as (_ & Hmatched & _).
  split; [reflexivity |]. split; [reflexivity |].
  exact (Hmatched eq_refl).
Defined.

(** Naming, initializing, renaming and destroying a column of the table [1]
    calls that table only. *)
Lemma performAll_calls_own_table_witness :
  _table (self (hostedWorld null)) = val 1%positive
  /\ exists new,
       calls (performAll renamingActions (hostedWorld null))
         = (calls (hostedWorld null) ++ new)%list
       /\ Forall (callOn 1%positive 7%positive) new
       /\ forall other,
            other <> 1%positive ->
            tables (performAll renamingActions (hostedWorld null)) !! other
              = tables (hostedWorld null) !! other.
Proof.
  split; [reflexivity |].
  exact (performAll_calls_own_table renamingActions (hostedWorld null)
           1%positive eq_refl).
Defined.

(** The same actions on a column without a host table call nothing. *)
Lemma performAll_without_table_witness :
  truthy (_table (self orphanWorld)) = false
  /\ calls (performAll renamingActions orphanWorld) = []
  /\ tables (performAll renamingActions orphanWorld) = tables orphanWorld.
Proof.
  split; [reflexivity |].
  exact (performAll_without_table renamingActions orphanWorld eq_refl).
Defined.
